(** * Spack package recipes [kokkos] and [py-pycparser]

    A shallow embedding of the two recipes
    [var/spack/repos/builtin/packages/kokkos/package.py] and
    [var/spack/repos/builtin/packages/py-pycparser/package.py]:
    the declaration tables (versions, variants, conflicts, dependencies)
    and the one procedure, [Kokkos.cmake_args]. *)

From stdpp Require Import gmap strings list fin_maps.
From Stdlib Require Import String Ascii List NArith Lia.
Import ListNotations.

Local Open Scope string_scope.
Local Open Scope list_scope.

(** ** Python values and errors *)

(** The value held by a variant of a spec: a Python [bool] for an on/off
    variant, a Python [str] for a single-valued one. *)
Inductive Value :=
  | VBool (b : bool)
  | VStr (s : string).

Definition Value_eqb (a b : Value) : bool :=
  match a, b with
  | VBool x, VBool y => Bool.eqb x y
  | VStr x, VStr y => String.eqb x y
  | _, _ => false
  end.

(** The exceptions the recipe code can raise. *)
Inductive PyError :=
  | KeyError (key : string)
  | TypeError.

Inductive result (A : Type) :=
  | Ok (a : A)
  | Raise (e : PyError).
Arguments Ok {A} a.
Arguments Raise {A} e.

Definition bind {A B} (r : result A) (k : A -> result B) : result B :=
  match r with
  | Ok a => k a
  | Raise e => Raise e
  end.

Notation "'do' x <- r ; k" := (bind r (fun x => k))
  (at level 10, x name, r at level 100, k at level 200).

(** [lst.append(x)] on a list threaded through the procedure. *)
Definition append {A} (x : A) (lst : list A) : list A := lst ++ [x].

(** [if c: body] where [body] updates the threaded list. *)
Definition if_ {A} (c : bool) (body : list A -> list A) (lst : list A) : list A :=
  if c then body lst else lst.

(** [a != b] on Python values: a [bool] never equals a [str]. *)
Definition py_ne (a b : Value) : bool := negb (Value_eqb a b).

(** [sep.join(items)]: every item has to be a [str]. *)
Fixpoint str_items (items : list Value) : result (list string) :=
  match items with
  | [] => Ok []
  | VStr s :: rest => do l <- str_items rest; Ok (s :: l)
  | VBool _ :: _ => Raise TypeError
  end.

Definition join (sep : string) (items : list Value) : result string :=
  do l <- str_items items; Ok (String.concat sep l).

(** ** Versions *)

(** A version identifier: the moving branch pointer [develop], or a dotted
    release number. *)
Inductive Version :=
  | Develop
  | Release (components : list N).

Definition digit_of (c : ascii) : option N :=
  let n := N_of_ascii c in
  if ((48 <=? n) && (n <=? 57))%N then Some (n - 48)%N else None.

(** Reads a dotted number; [cur] is the component being read. *)
Fixpoint parse_components (s : string) (cur : option N) : option (list N) :=
  match s with
  | EmptyString => match cur with Some n => Some [n] | None => None end
  | String c rest =>
      if Ascii.eqb c "."
      then match cur with
           | Some n => option_map (cons n) (parse_components rest None)
           | None => None
           end
      else match digit_of c with
           | Some d =>
               parse_components rest
                 (Some (match cur with Some n => 10 * n + d | None => d end)%N)
           | None => None
           end
  end.

(** Modelled from the spec: the host's version parser is missing; an
    identifier is "a dotted release number or a moving branch pointer". *)
Definition parse_version (s : string) : option Version :=
  if String.eqb s "develop" then Some Develop
  else option_map Release (parse_components s None).

(** Lexicographic order on components; a proper prefix is older. *)
Fixpoint components_leb (a b : list N) : bool :=
  match a, b with
  | [], _ => true
  | _ :: _, [] => false
  | x :: a', y :: b' =>
      if (x <? y)%N then true
      else if (x =? y)%N then components_leb a' b'
      else false
  end.

Fixpoint is_prefix (p l : list N) : bool :=
  match p, l with
  | [], _ => true
  | _ :: _, [] => false
  | x :: p', y :: l' => (x =? y)%N && is_prefix p' l'
  end.

(** Modelled from the spec: the host's version order is missing; the
    moving branch pointer is newer than every release. *)
Definition version_leb (a b : Version) : bool :=
  match a, b with
  | _, Develop => true
  | Develop, Release _ => false
  | Release x, Release y => components_leb x y
  end.

(** [v] is at most the upper end [hi] of a range, or extends it. *)
Definition below_end (v hi : Version) : bool :=
  version_leb v hi ||
  match v, hi with
  | Release x, Release y => is_prefix y x
  | _, _ => false
  end.

(** Splits [s] at the first occurrence of [c]. *)
Fixpoint split_at (c : ascii) (s : string) : option (string * string) :=
  match s with
  | EmptyString => None
  | String d rest =>
      if Ascii.eqb d c then Some (EmptyString, rest)
      else match split_at c rest with
           | Some (l, r) => Some (String d l, r)
           | None => None
           end
  end.

(** Modelled from the spec: the host's version-range test is missing;
    a range [lo:hi] is closed and either end may be left out. *)
Definition version_in_range (v : string) (range : string) : bool :=
  match parse_version v, split_at ":" range with
  | Some pv, Some (lo, hi) =>
      (if String.eqb lo "" then true
       else match parse_version lo with
            | Some plo => version_leb plo pv
            | None => false
            end) &&
      (if String.eqb hi "" then true
       else match parse_version hi with
            | Some phi => below_end pv phi
            | None => false
            end)
  | Some pv, None =>
      match parse_version range with
      | Some pr => version_leb pr pv && below_end pv pr
      | None => false
      end
  | None, _ => false
  end.

(** ** Specs and spec constraints *)

(** The resolved configuration of one build: the chosen version and the
    mapping from variant name to value ([spec.variants]). *)
Record Spec := mkSpec {
  version : string;
  variants : gmap string Value
}.

(** The constraint strings used by the recipe: [+name], [~name],
    [name=value] and [@range]. *)
Inductive Constraint :=
  | CBool (name : string) (b : bool)
  | CValue (name value : string)
  | CVersion (range : string)
  | CNone.

(** Modelled from the spec: the host's spec parser is missing; a
    constraint is "a predicate over the set of selected variants/version". *)
Definition parse_constraint (q : string) : Constraint :=
  match q with
  | String "+" name => CBool name true
  | String "~" name => CBool name false
  | String "@" range => CVersion range
  | _ => match split_at "=" q with
         | Some (name, value) => CValue name value
         | None => CNone
         end
  end.

(** The variant [name] is present in [spec] and holds [v]. *)
Definition has_value (spec : Spec) (name : string) (v : Value) : bool :=
  match variants spec !! name with
  | Some w => Value_eqb w v
  | None => false
  end.

(** Modelled from the spec: the host's satisfaction test is missing; the
    membership checks are "boolean field lookups on a
    resolved-configuration record". *)
Definition satisfies (spec : Spec) (c : Constraint) : bool :=
  match c with
  | CBool name b => has_value spec name (VBool b)
  | CValue name value => has_value spec name (VStr value)
  | CVersion range => version_in_range (version spec) range
  | CNone => false
  end.

(** [q in spec] *)
Definition contains (q : string) (spec : Spec) : bool :=
  satisfies spec (parse_constraint q).

(** [spec.variants[name].value] *)
Definition variant_value (spec : Spec) (name : string) : result Value :=
  match variants spec !! name with
  | Some v => Ok v
  | None => Raise (KeyError name)
  end.

(** ** Declarations *)

Record VersionDecl := mkVersion {
  ver_id : string;
  ver_checksum : option string;
  ver_branch : option string
}.

Definition version_ (id checksum : string) : VersionDecl :=
  mkVersion id (Some checksum) None.

Record Variant := mkVariant {
  var_name : string;
  var_default : Value;
  var_values : option (list string);
  var_description : string
}.

Record Conflict := mkConflict {
  conflict_spec : string;
  conflict_when : string;
  conflict_msg : option string
}.

Inductive DepType := build | link | run.

Record Dependency := mkDependency {
  dep_spec : string;
  dep_when : option string;
  dep_type : option (list DepType)
}.

(** A recipe class: its directives in declaration order and the names of
    the methods its body defines. *)
Record Package := mkPackage {
  pkg_name : string;
  pkg_base : string;
  pkg_homepage : string;
  pkg_url : string;
  pkg_versions : list VersionDecl;
  pkg_variants : list Variant;
  pkg_conflicts : list Conflict;
  pkg_dependencies : list Dependency;
  pkg_methods : list string
}.

(** ** The [kokkos] recipe *)

Module Kokkos.

Definition homepage := "https://github.com/kokkos/kokkos".
Definition url := "https://github.com/kokkos/kokkos/archive/2.03.00.tar.gz".
Definition git := "https://github.com/kokkos/kokkos.git".

Definition versions : list VersionDecl :=
  [ mkVersion "develop" None (Some "develop");
    version_ "2.8.00" "1c72661f2d770517bff98837001b42b9c677d1df29f7493a1d7c008549aff630";
    version_ "2.7.24" "a308a80ea1488f4c18884b828ce7ae9f5210b9a6b2f61b208d875084d8da8cb0";
    version_ "2.7.00" "b357f9374c1008754babb4495f95e392";
    version_ "2.5.00" "2db83c56587cb83b772d0c81a3228a21";
    version_ "2.04.11" "d4849cee6eb9001d61c30f1d9fe74336";
    version_ "2.04.04" "2c6d1c2569b91c9fcd4117296438e65c";
    version_ "2.04.00" "d99ac790ff5f29545d8eb53de90c0a85";
    version_ "2.03.13" "3874a159a517384541ea5b52f85501ba";
    version_ "2.03.05" "8727d783453f719eec392e10a36b49fd";
    version_ "2.03.00" "f205d659d4304747759fabfba32d43c3";
    version_ "2.02.15" "de41e38f452a50bb03363c519fe20769";
    version_ "2.02.07" "d5baeea70109249f7dca763074ffb202" ].

Definition gpu_values : list string :=
  [ "Kepler30"; "Kepler32"; "Kepler35"; "Kepler37";
    "Maxwell50"; "Maxwell52"; "Maxwell53";
    "Pascal60"; "Pascal61";
    "Volta70"; "Volta72" ].

Definition cuda_options : list string :=
  [ "force_uvm"; "use_ldg"; "rdc"; "enable_lambda" ].

(** [variant(name, default=False, description=...)] *)
Definition flag_variant (name : string) (default : bool) (description : string) : Variant :=
  mkVariant name (VBool default) None description.

Definition host_arch_variant : Variant :=
  mkVariant "host_arch" (VStr "none")
    (Some [ "AMDAVX"; "ARMv80"; "ARMv81"; "ARMv8-ThunderX";
            "Power7"; "Power8"; "Power9";
            "WSM"; "SNB"; "HSW"; "BDW"; "SKX"; "KNC"; "KNL" ])
    "Set the host architecture to use".

Definition gpu_arch_variant : Variant :=
  mkVariant "gpu_arch" (VStr "none") (Some gpu_values)
    "Set the GPU architecture to use".

Definition variant_decls : list Variant :=
  [ flag_variant "debug" false "Build debug version of Kokkos";
    flag_variant "serial" true "enable Serial backend (default)";
    flag_variant "pthreads" false "enable Pthreads backend";
    flag_variant "qthreads" false "enable Qthreads backend";
    flag_variant "cuda" false "enable Cuda backend";
    flag_variant "openmp" false "enable OpenMP backend";
    flag_variant "debug" false "enable compile and runtime options to aid debugging";
    flag_variant "pic" false "enable position independent code (-fPIC flag)";
    flag_variant "aggressive_vectorization" false
      "set aggressive_vectorization Kokkos option";
    flag_variant "disable_profiling" false
      "set disable_profiling Kokkos option";
    flag_variant "disable_dualview_modify_check" false
      "set disable_dualview_modify_check Kokkos option";
    flag_variant "enable_profile_load_print" false
      "set enable_profile_load_print Kokkos option";
    flag_variant "compiler_warnings" false
      "set compiler_warnings Kokkos option";
    flag_variant "disable_deprecated_code" false
      "set disable_deprecated_code Kokkos option";
    flag_variant "enable_eti" false
      "set enable_eti Kokkos option";
    flag_variant "force_uvm" false "set force_uvm Kokkos CUDA option";
    flag_variant "use_ldg" false "set use_ldg Kokkos CUDA option";
    flag_variant "rdc" false "set rdc Kokkos CUDA option";
    flag_variant "enable_lambda" false "set enable_lambda Kokkos CUDA option";
    host_arch_variant;
    gpu_arch_variant ].

Definition gpu_arch_msg := "Must specify CUDA backend to use a GPU architecture.".

Definition conflicts : list Conflict :=
  [ mkConflict "+aggressive_vectorization" "@:2.0.99" None;
    mkConflict "+disable_profiling" "@:2.0.99" None;
    mkConflict "+disable_dualview_modify_check" "@:2.03.04" None;
    mkConflict "+enable_profile_load_print" "@:2.03.04" None;
    mkConflict "+compiler_warnings" "@:2.03.14" None;
    mkConflict "+disable_deprecated_code" "@:2.5.99" None;
    mkConflict "+enable_eti" "@:2.6.99" None ]
  ++ map (fun p => mkConflict ("gpu_arch=" +:+ p) "~cuda" (Some gpu_arch_msg))
       gpu_values
  ++ [ mkConflict "+force_uvm" "~cuda" (Some "Must enable CUDA to use force_uvm.");
       mkConflict "+use_ldg" "~cuda" (Some "Must enable CUDA to use use_ldg.");
       mkConflict "+rdc" "~cuda" (Some "Must enable CUDA to use rdc.");
       mkConflict "+enable_lambda" "~cuda"
         (Some "Must enable CUDA to use enable_lambda.");
       mkConflict "gpu_arch=Volta70" "@:2.5.99" None;
       mkConflict "gpu_arch=Volta72" "@:2.5.99" None;
       mkConflict "+cuda" "@2.5.00:2.7.00"
         (Some ("Kokkos build system has issue (#1296) when CUDA enabled"
                +:+ " in version 2.5.00 through 2.7.00.")) ].

Definition dependencies : list Dependency :=
  [ mkDependency "hwloc@:1" None None;
    mkDependency "qthreads" (Some "+qthreads") None;
    mkDependency "cuda" (Some "+cuda") None ].

Definition cmake_args (spec : Spec) : result (list string) :=
  let args := [] in
  let args := if_ (contains "+serial" spec)
                (append "-DKOKKOS_ENABLE_SERIAL=ON") args in
  let args := if_ (contains "+openmp" spec)
                (append "-DKOKKOS_ENABLE_OPENMP=ON") args in
  let args := if_ (contains "+qthreads" spec)
                (append "-DKOKKOS_ENABLE_QTHREADS=ON") args in
  let args := if_ (contains "+pthreads" spec)
                (append "-DKOKKOS_ENABLE_PTHREAD=ON") args in
  let args := if_ (contains "+cuda" spec)
                (append "-DKOKKOS_ENABLE_CUDA=ON") args in
  let args := if_ (contains "+pic" spec)
                (append "-DBUILD_SHARED_LIBS=ON") args in
  let args := if_ (contains "+debug" spec)
                (append "-DKOKKOS_ENABLE_DEBUG=ON") args in
  let arch_args := [] in
  do host_arch <- variant_value spec "host_arch";
  do gpu_arch <- variant_value spec "gpu_arch";
  let arch_args := if_ (py_ne host_arch (VStr "none")) (append host_arch) arch_args in
  let arch_args := if_ (py_ne gpu_arch (VStr "none")) (append gpu_arch) arch_args in
  do args <- match arch_args with
             | [] => Ok args
             | _ :: _ =>
                 do archs <- join "," arch_args;
                 Ok (append ("-DKOKKOS_ARCH=" +:+ archs) args)
             end;
  let args := if_ (contains "+force_uvm" spec)
                (append "-DKOKKOS_ENABLE_CUDA_UVM=ON") args in
  let args := if_ (contains "+use_ldg" spec)
                (append "-DKOKKOS_ENABLE_CUDA_LDG_INTRINSIC=ON") args in
  let args := if_ (contains "+enable_lambda" spec)
                (append "-DKOKKOS_ENABLE_CUDA_LAMBDA=ON") args in
  let args := if_ (contains "+aggressive_vectorization" spec)
                (append "-DKOKKOS_ENABLE_AGGRESSIVE_VECTORIZATION=ON") args in
  let args := if_ (contains "+disable_profiling" spec)
                (append "-DKOKKOS_ENABLE_PROFILING=OFF") args in
  let args := if_ (contains "+disable_dualview_modify_check" spec)
                (append "-DKOKKOS_ENABLE_DEBUG_DUALVIEW_MODIFY_CHECK=OFF") args in
  let args := if_ (contains "+enable_profile_load_print" spec)
                (append "-DKOKKOS_ENABLE_PROFILING_LOAD_PRINT=OFF") args in
  let args := if_ (contains "+compiler_warnings" spec)
                (append "-DKOKKOS_ENABLE_COMPILER_WARNINGS=ON") args in
  let args := if_ (contains "+disable_deprecated_code" spec)
                (append "-DKOKKOS_ENABLE_DEPRECATED_CODE=OFF") args in
  let args := if_ (contains "+enable_eti" spec)
                (append "-DKOKKOS_ENABLE_EXPLICIT_INSTANTIATION=ON") args in
  Ok args.

Definition package : Package :=
  mkPackage "kokkos" "CMakePackage" homepage url
    versions variant_decls conflicts dependencies ["cmake_args"].

End Kokkos.

(** ** The [py-pycparser] recipe *)

Module PyPycparser.

Definition homepage := "https://github.com/eliben/pycparser".
Definition url := "https://pypi.io/packages/source/p/pycparser/pycparser-2.17.tar.gz".
Definition import_modules : list string := [ "pycparser"; "pycparser.ply" ].

Definition versions : list VersionDecl :=
  [ version_ "2.17" "ca98dcb50bc1276f230118f6af5a40c7";
    version_ "2.13" "e4fe1a2d341b22e25da0d22f034ef32f" ].

Definition dependencies : list Dependency :=
  [ mkDependency "py-setuptools" None (Some [build]) ].

Definition package : Package :=
  mkPackage "py-pycparser" "PythonPackage" homepage url
    versions [] [] dependencies [].

End PyPycparser.

(** ** The host's use of the declarations *)

(** Modelled from the spec: the host's resolution of variants is missing;
    "a variant's effective value for a given build is one of {default,
    explicitly-overridden value}". *)
Definition effective_value (d : Variant) (override : option Value) : Value :=
  match override with
  | Some v => v
  | None => var_default d
  end.

(** Modelled from the spec: the host's variant validation is missing; a
    value "must belong to the declared legal set" (for an on/off variant,
    the two booleans). *)
Definition legal_value (d : Variant) (v : Value) : bool :=
  match var_values d, v with
  | Some vals, VStr s => existsb (String.eqb s) vals
  | None, VBool _ => true
  | _, _ => false
  end.

(** Modelled from the spec: the host's resolution of one variant is
    missing; the effective value is the default or the explicitly
    overridden value, and an overridden value that does not "belong to the
    declared legal set" is refused. The default is taken as declared. *)
Definition resolve_variant (d : Variant) (override : option Value) : option Value :=
  match override with
  | None => Some (var_default d)
  | Some v => if legal_value d v then Some v else None
  end.

(** The spec in which every declared variant has its default; a later
    declaration of a name replaces an earlier one. *)
Definition default_variants (decls : list Variant) : gmap string Value :=
  fold_left (fun m d => <[var_name d := var_default d]> m) decls ∅.

Definition default_spec (pkg : Package) (v : string) : Spec :=
  mkSpec v (default_variants (pkg_variants pkg)).

(** [spec] with the variant [name] set to [v]. *)
Definition with_variant (name : string) (v : Value) (spec : Spec) : Spec :=
  mkSpec (version spec) (<[name := v]> (variants spec)).

(** Modelled from the spec: the host's conflict check is missing; a rule
    fires when the spec satisfies both the conflicting constraint and the
    [when] condition. *)
Definition conflict_fires (spec : Spec) (c : Conflict) : bool :=
  contains (conflict_spec c) spec && contains (conflict_when c) spec.

Definition violated (pkg : Package) (spec : Spec) : list Conflict :=
  List.filter (conflict_fires spec) (pkg_conflicts pkg).

(** ** Specification vocabulary *)

(** The flags of [cmake_args] in the order of its statements, each with
    the on/off variant that triggers it: the ones before the architecture
    flag, and the ones after it. *)
Definition backend_flags : list (string * string) :=
  [ ("serial", "-DKOKKOS_ENABLE_SERIAL=ON");
    ("openmp", "-DKOKKOS_ENABLE_OPENMP=ON");
    ("qthreads", "-DKOKKOS_ENABLE_QTHREADS=ON");
    ("pthreads", "-DKOKKOS_ENABLE_PTHREAD=ON");
    ("cuda", "-DKOKKOS_ENABLE_CUDA=ON");
    ("pic", "-DBUILD_SHARED_LIBS=ON");
    ("debug", "-DKOKKOS_ENABLE_DEBUG=ON") ].

Definition option_flags : list (string * string) :=
  [ ("force_uvm", "-DKOKKOS_ENABLE_CUDA_UVM=ON");
    ("use_ldg", "-DKOKKOS_ENABLE_CUDA_LDG_INTRINSIC=ON");
    ("enable_lambda", "-DKOKKOS_ENABLE_CUDA_LAMBDA=ON");
    ("aggressive_vectorization", "-DKOKKOS_ENABLE_AGGRESSIVE_VECTORIZATION=ON");
    ("disable_profiling", "-DKOKKOS_ENABLE_PROFILING=OFF");
    ("disable_dualview_modify_check",
     "-DKOKKOS_ENABLE_DEBUG_DUALVIEW_MODIFY_CHECK=OFF");
    ("enable_profile_load_print", "-DKOKKOS_ENABLE_PROFILING_LOAD_PRINT=OFF");
    ("compiler_warnings", "-DKOKKOS_ENABLE_COMPILER_WARNINGS=ON");
    ("disable_deprecated_code", "-DKOKKOS_ENABLE_DEPRECATED_CODE=OFF");
    ("enable_eti", "-DKOKKOS_ENABLE_EXPLICIT_INSTANTIATION=ON") ].

Definition flag_table : list (string * string) := backend_flags ++ option_flags.

(** The variant [name] is switched on in [spec]. *)
Definition enabled (spec : Spec) (name : string) : bool :=
  contains ("+" +:+ name) spec.

(** The flags of a table whose variant is switched on, in table order. *)
Definition emit (tbl : list (string * string)) (spec : Spec) : list string :=
  map snd (List.filter (fun e => enabled spec (fst e)) tbl).

(** The architecture identifiers that are not ['none'], host first. *)
Definition selected_archs (h g : string) : list string :=
  (if String.eqb h "none" then [] else [h]) ++
  (if String.eqb g "none" then [] else [g]).

(** The combined architecture flag, when an architecture is selected. *)
Definition arch_flag (h g : string) : list string :=
  match selected_archs h g with
  | [] => []
  | l => [ "-DKOKKOS_ARCH=" +:+ String.concat "," l ]
  end.

Definition is_arch_flag (f : string) : bool := String.prefix "-DKOKKOS_ARCH=" f.

(** The names of the declared on/off variants, without repetition. *)
Definition flag_variant_names (decls : list Variant) : list string :=
  nodup string_dec
    (map var_name
       (List.filter (fun d => match var_default d with VBool _ => true | VStr _ => false end)
          decls)).

Definition same_kind (a b : Value) : bool :=
  match a, b with
  | VBool _, VBool _ => true
  | VStr _, VStr _ => true
  | _, _ => false
  end.

(** [spec] maps every declared variant to a value of the declared kind. *)
Definition maps_declared (decls : list Variant) (spec : Spec) : bool :=
  forallb (fun d => match variants spec !! var_name d with
                    | Some v => same_kind v (var_default d)
                    | None => false
                    end) decls.

(** ** Sample builds *)

(** Release 2.8.00 with every variant at its default. *)
Definition default_build : Spec := default_spec Kokkos.package "2.8.00".

Definition cuda_build : Spec := with_variant "cuda" (VBool true) default_build.

(** [kokkos@2.8.00 +cuda +rdc] *)
Definition rdc_build : Spec := with_variant "rdc" (VBool true) cuda_build.

(** [kokkos@2.8.00 host_arch=HSW] *)
Definition hsw_build : Spec := with_variant "host_arch" (VStr "HSW") default_build.

(** [kokkos@2.8.00 +cuda gpu_arch=Volta70] *)
Definition volta_build : Spec := with_variant "gpu_arch" (VStr "Volta70") cuda_build.

(** [kokkos@2.8.00 +cuda host_arch=SKX gpu_arch=Pascal60] *)
Definition skx_pascal_build : Spec :=
  with_variant "host_arch" (VStr "SKX")
    (with_variant "gpu_arch" (VStr "Pascal60") cuda_build).

(** [kokkos@2.8.00 ~cuda gpu_arch=Volta70], which the conflicts forbid. *)
Definition gpu_without_cuda_build : Spec :=
  with_variant "gpu_arch" (VStr "Volta70") default_build.

(** [kokkos@2.8.00 +cuda +force_uvm +use_ldg +rdc +enable_lambda] *)
Definition cuda_options_build : Spec :=
  with_variant "force_uvm" (VBool true)
    (with_variant "use_ldg" (VBool true)
       (with_variant "enable_lambda" (VBool true) rdc_build)).

(** [kokkos@2.8.00 +enable_profile_load_print +disable_profiling] *)
Definition profiling_build : Spec :=
  with_variant "enable_profile_load_print" (VBool true)
    (with_variant "disable_profiling" (VBool true) default_build).

(** ** Further vocabulary *)

(** The variants [cmake_args] reads: the on/off variants it tests and the
    two architecture variants. *)
Definition read_names : list string :=
  map fst flag_table ++ ["host_arch"; "gpu_arch"].

(** Modelled from the spec: the host's activation of dependency edges is
    missing; the "when" condition is "gating whether the edge is active for
    a given build configuration". *)
Definition dependency_active (spec : Spec) (d : Dependency) : bool :=
  match dep_when d with
  | None => true
  | Some w => contains w spec
  end.

Definition active_dependencies (pkg : Package) (spec : Spec) : list string :=
  map dep_spec (List.filter (dependency_active spec) (pkg_dependencies pkg)).

(** The variant a conflict rule is about is declared, with the value the
    rule names. *)
Definition conflict_subject_declared (decls : list Variant) (c : Conflict) : bool :=
  match parse_constraint (conflict_spec c) with
  | CBool n b =>
      existsb (fun d => String.eqb (var_name d) n && legal_value d (VBool b)) decls
  | CValue n v =>
      existsb (fun d => String.eqb (var_name d) n && legal_value d (VStr v)) decls
  | CVersion _ => false
  | CNone => false
  end.

(** The [when] of a conflict rule is a variant test or a version range. *)
Definition conflict_when_sound (decls : list Variant) (c : Conflict) : bool :=
  match parse_constraint (conflict_when c) with
  | CBool n b =>
      existsb (fun d => String.eqb (var_name d) n && legal_value d (VBool b)) decls
  | CValue n v =>
      existsb (fun d => String.eqb (var_name d) n && legal_value d (VStr v)) decls
  | CVersion r =>
      match split_at ":" r with
      | Some (lo, hi) =>
          (String.eqb lo "" || match parse_version lo with Some _ => true | None => false end)
          && (String.eqb hi "" || match parse_version hi with Some _ => true | None => false end)
      | None => match parse_version r with Some _ => true | None => false end
      end
  | CNone => false
  end.

(** [kokkos@2.8.00 +force_uvm] with [cuda] off, which the conflicts forbid. *)
Definition uvm_without_cuda_build : Spec :=
  with_variant "force_uvm" (VBool true) default_build.

(** [kokkos@2.8.00 +cuda +qthreads +force_uvm gpu_arch=Volta70] *)
Definition uvm_volta_build : Spec :=
  with_variant "force_uvm" (VBool true)
    (with_variant "qthreads" (VBool true) volta_build).

(** ** Facts about the helpers *)

Lemma if_append {A} (c : bool) (x : A) (lst : list A) :
  if_ c (append x) lst = lst ++ (if c then [x] else []).
Proof. destruct c; simpl; [reflexivity | now rewrite app_nil_r]. Qed.

Lemma in_emit tbl spec f :
  In f (emit tbl spec) <->
  exists name, In (name, f) tbl /\ enabled spec name = true.
Proof.
  unfold emit. rewrite in_map_iff. split.
  - intros [[n f'] [Hf Hin]]. simpl in Hf. subst f'.
    apply filter_In in Hin as [Hin Hen]. now exists n.
  - intros [n [Hin Hen]]. exists (n, f). split; [reflexivity |].
    apply filter_In. now split.
Qed.

Lemma emit_incl tbl spec f : In f (emit tbl spec) -> In f (map snd tbl).
Proof.
  intros [n [Hin _]]%in_emit. apply in_map_iff. now exists (n, f).
Qed.

Lemma emit_NoDup tbl spec : NoDup (map snd tbl) -> NoDup (emit tbl spec).
Proof.
  induction tbl as [| [n f] tbl IH]; intros Hnd.
  - constructor.
  - apply NoDup_cons_iff in Hnd as [Hnotin Hnd]. unfold emit. simpl.
    destruct (enabled spec n); simpl.
    + constructor; [| now apply IH].
      intros Hin. apply Hnotin. now apply (emit_incl tbl spec).
    + now apply IH.
Qed.

Lemma emit_no_arch tbl spec :
  forallb (fun e => negb (is_arch_flag (snd e))) tbl = true ->
  List.filter is_arch_flag (emit tbl spec) = [].
Proof.
  induction tbl as [| [n f] tbl IH]; intros H; [reflexivity |].
  simpl in H. apply andb_true_iff in H as [Hf Htl].
  unfold emit. simpl. destruct (enabled spec n); simpl.
  - apply negb_true_iff in Hf. rewrite Hf. now apply IH.
  - now apply IH.
Qed.

Lemma prefix_app (p s : string) : String.prefix p (p +:+ s) = true.
Proof.
  induction p as [| c p IH]; simpl.
  - now destruct s.
  - destruct (ascii_dec c c); [exact IH | congruence].
Qed.

Lemma arch_flag_is_arch h g f : In f (arch_flag h g) -> is_arch_flag f = true.
Proof.
  unfold arch_flag. destruct (selected_archs h g); simpl; [tauto |].
  intros [<- | []]. apply prefix_app.
Qed.

Lemma filter_arch_flag h g : List.filter is_arch_flag (arch_flag h g) = arch_flag h g.
Proof.
  unfold arch_flag. destruct (selected_archs h g) as [| a l]; [reflexivity |].
  cbn [List.filter]. unfold is_arch_flag. now rewrite prefix_app.
Qed.

Lemma has_value_true spec name v :
  has_value spec name v = true <-> variants spec !! name = Some v.
Proof.
  unfold has_value. destruct (variants spec !! name) as [w |]; [| easy].
  split.
  - destruct w, v; simpl; try discriminate.
    + intros ->%Bool.eqb_prop. reflexivity.
    + intros ->%String.eqb_eq. reflexivity.
  - intros [= ->]. destruct v; simpl.
    + apply Bool.eqb_reflx.
    + apply String.eqb_refl.
Qed.

Lemma enabled_true spec name :
  enabled spec name = true <-> variants spec !! name = Some (VBool true).
Proof. unfold enabled, contains. simpl. apply has_value_true. Qed.

Lemma emit_cons n f tbl spec :
  emit ((n, f) :: tbl) spec =
  (if enabled spec n then [f] else []) ++ emit tbl spec.
Proof. unfold emit. simpl. now destruct (enabled spec n). Qed.

Lemma emit_nil spec : emit [] spec = [].
Proof. reflexivity. Qed.

(** ** The shape of the output of [cmake_args] *)

Section Shape.

Variable spec : Spec.
Variables h g : string.
Hypothesis Hhost : variants spec !! "host_arch" = Some (VStr h).
Hypothesis Hgpu : variants spec !! "gpu_arch" = Some (VStr g).

(** The output is the enabled backend flags, then the architecture flag if
    any, then the enabled option flags. *)
Lemma cmake_args_shape :
  Kokkos.cmake_args spec =
  Ok (emit backend_flags spec ++ arch_flag h g ++ emit option_flags spec).
Proof.
  unfold Kokkos.cmake_args, variant_value. rewrite Hhost, Hgpu.
  cbv beta iota zeta delta [bind].
  unfold py_ne, arch_flag, selected_archs. cbn [Value_eqb].
  unfold backend_flags, option_flags. rewrite !emit_cons, !emit_nil.
  unfold enabled.
  destruct (String.eqb h "none"), (String.eqb g "none");
    cbn [negb if_ append app join str_items bind];
    rewrite ?if_append; unfold append;
    rewrite ?app_nil_r, <- ?app_assoc; reflexivity.
Qed.

Lemma cmake_args_arch_flags args :
  Kokkos.cmake_args spec = Ok args ->
  List.filter is_arch_flag args = arch_flag h g.
Proof.
  rewrite cmake_args_shape. intros [= <-].
  rewrite !filter_app, filter_arch_flag.
  rewrite !emit_no_arch by reflexivity.
  now rewrite app_nil_r.
Qed.

Lemma cmake_args_In args f :
  Kokkos.cmake_args spec = Ok args ->
  In f args <->
  (exists name, In (name, f) flag_table /\ enabled spec name = true) \/
  In f (arch_flag h g).
Proof.
  rewrite cmake_args_shape. intros [= <-].
  rewrite !in_app_iff, !in_emit. unfold flag_table. split.
  - intros [[n [Hin Hen]] | [Ha | [n [Hin Hen]]]].
    + left. exists n. rewrite in_app_iff. tauto.
    + now right.
    + left. exists n. rewrite in_app_iff. tauto.
  - intros [[n [[Hin | Hin]%in_app_iff Hen]] | Ha].
    + left. now exists n.
    + right. right. now exists n.
    + tauto.
Qed.

Lemma flag_table_NoDup : NoDup (map snd flag_table).
Proof.
  apply (NoDup_count_occ' string_dec). intros f Hin.
  simpl in Hin.
  repeat (destruct Hin as [<- | Hin]; [reflexivity |]). destruct Hin.
Qed.

Lemma cmake_args_NoDup args :
  Kokkos.cmake_args spec = Ok args -> NoDup args.
Proof.
  rewrite cmake_args_shape. intros [= <-].
  pose proof flag_table_NoDup as Hnd. unfold flag_table in Hnd.
  rewrite map_app in Hnd.
  assert (Hdisj : forall a, In a (map snd backend_flags) ->
                            ~ In a (map snd option_flags)).
  { intros a Ha Hb. revert a Ha Hb. apply NoDup_app_remove_l in Hnd as Hr.
    clear Hr. intros a Ha Hb.
    assert (Hc : count_occ string_dec (map snd backend_flags ++ map snd option_flags) a = 1).
    { apply (proj1 (NoDup_count_occ' string_dec _) Hnd). apply in_app_iff. now left. }
    rewrite count_occ_app in Hc.
    apply (count_occ_In string_dec) in Ha, Hb. lia. }
  apply NoDup_app.
  - apply emit_NoDup. now apply NoDup_app_remove_r in Hnd.
  - apply NoDup_app.
    + unfold arch_flag. destruct (selected_archs h g); repeat constructor; simpl; tauto.
    + apply emit_NoDup. now apply NoDup_app_remove_l in Hnd.
    + intros a Ha%arch_flag_is_arch Hb%emit_incl.
      assert (Hf : forallb (fun f => negb (is_arch_flag f)) (map snd option_flags) = true)
        by reflexivity.
      rewrite forallb_forall in Hf. apply Hf in Hb. now rewrite Ha in Hb.
  - intros a Ha%emit_incl [Hb%arch_flag_is_arch | Hb%emit_incl]%in_app_iff.
    + assert (Hf : forallb (fun f => negb (is_arch_flag f)) (map snd backend_flags) = true)
        by reflexivity.
      rewrite forallb_forall in Hf. apply Hf in Ha. now rewrite Hb in Ha.
    + exact (Hdisj a Ha Hb).
Qed.

End Shape.

Lemma snd_unique {A B} (l : list (A * B)) a b f :
  NoDup (map snd l) -> In (a, f) l -> In (b, f) l -> a = b.
Proof.
  induction l as [| [x y] l IH]; simpl; [tauto |].
  intros Hnd%NoDup_cons_iff [Ha | Ha] [Hb | Hb]; destruct Hnd as [Hnotin Hnd].
  - congruence.
  - exfalso. apply Hnotin. apply in_map_iff. exists (b, f). split; [| assumption].
    simpl. congruence.
  - exfalso. apply Hnotin. apply in_map_iff. exists (a, f). split; [| assumption].
    simpl. congruence.
  - now apply IH.
Qed.

Lemma flag_table_no_arch :
  forallb (fun e => negb (is_arch_flag (snd e))) flag_table = true.
Proof. reflexivity. Qed.

Section Flags.

Variable spec : Spec.
Variables h g : string.
Hypothesis Hhost : variants spec !! "host_arch" = Some (VStr h).
Hypothesis Hgpu : variants spec !! "gpu_arch" = Some (VStr g).

(** A variant of the flag table that is switched on puts its flag in the
    output exactly once. *)
Lemma cmake_args_emits name flag :
  In (name, flag) flag_table -> enabled spec name = true ->
  exists args, Kokkos.cmake_args spec = Ok args /\
               count_occ string_dec args flag = 1.
Proof.
  intros Hin Hen.
  exists (emit backend_flags spec ++ arch_flag h g ++ emit option_flags spec).
  pose proof (cmake_args_shape spec h g Hhost Hgpu) as Hshape.
  split; [exact Hshape |].
  apply (proj1 (NoDup_count_occ' string_dec _)
           (cmake_args_NoDup spec h g Hhost Hgpu _ Hshape)).
  apply (cmake_args_In spec h g Hhost Hgpu _ flag Hshape).
  left. now exists name.
Qed.

(** A variant of the flag table that is not switched on leaves its flag
    out of the output. *)
Lemma cmake_args_omits name flag args :
  In (name, flag) flag_table -> enabled spec name = false ->
  Kokkos.cmake_args spec = Ok args -> ~ In flag args.
Proof.
  intros Hin Hen Hargs Hf.
  apply (cmake_args_In spec h g Hhost Hgpu _ flag Hargs) in Hf
    as [[n [Hn Hon]] | Harch].
  - assert (n = name) by (eapply snd_unique; eauto using flag_table_NoDup).
    subst n. congruence.
  - apply arch_flag_is_arch in Harch.
    pose proof flag_table_no_arch as Hna. rewrite forallb_forall in Hna.
    apply Hna in Hin. simpl in Hin. now rewrite Harch in Hin.
Qed.

End Flags.

(** A spec that maps every declared variant gives both architecture
    variants a string. *)
Lemma maps_declared_archs spec :
  maps_declared Kokkos.variant_decls spec = true ->
  exists h g, variants spec !! "host_arch" = Some (VStr h) /\
              variants spec !! "gpu_arch" = Some (VStr g).
Proof.
  unfold maps_declared. rewrite forallb_forall. intros H.
  assert (Hh : In Kokkos.host_arch_variant Kokkos.variant_decls)
    by (simpl; repeat (first [left; reflexivity | right])).
  assert (Hg : In Kokkos.gpu_arch_variant Kokkos.variant_decls)
    by (simpl; repeat (first [left; reflexivity | right])).
  apply H in Hh, Hg. simpl in Hh, Hg.
  destruct (variants spec !! "host_arch") as [[b | h] |]; try discriminate Hh.
  destruct (variants spec !! "gpu_arch") as [[b' | g] |]; try discriminate Hg.
  now exists h, g.
Qed.

(** A spec without the architecture variants makes [cmake_args] raise. *)
Example cmake_args_KeyError :
  Kokkos.cmake_args (mkSpec "2.8.00" ∅) = Raise (KeyError "host_arch").
Proof. reflexivity. Qed.

(** A boolean held by an architecture variant makes the join raise. *)
Example cmake_args_TypeError :
  Kokkos.cmake_args (with_variant "host_arch" (VBool true) default_build)
  = Raise TypeError.
Proof. vm_compute. reflexivity. Qed.

Example cmake_args_default :
  Kokkos.cmake_args default_build = Ok ["-DKOKKOS_ENABLE_SERIAL=ON"].
Proof. vm_compute. reflexivity. Qed.

(** Every declared on/off variant except [rdc] has a row in the flag
    table, and every row belongs to a declared on/off variant. *)
Lemma flag_table_variants name :
  In name (flag_variant_names Kokkos.variant_decls) <->
  name = "rdc" \/ In name (map fst flag_table).
Proof.
  vm_compute. intuition (subst; auto 30).
Qed.

(** ** The claims *)

(** C1: every declared on/off variant that is enabled should contribute
    one flag to the output of [cmake_args]. The build
    [kokkos@2.8.00 +cuda +rdc] maps every declared variant, breaks no
    conflict rule and has [serial], [cuda] and [rdc] enabled, yet the output
    holds two flags only: [rdc] contributes none, and the output is the one
    of the same build with [rdc] switched off. *)
Theorem cmake_args_rdc_flag_missing :
  In "rdc" (flag_variant_names Kokkos.variant_decls) /\
  In "rdc" Kokkos.cuda_options /\
  maps_declared Kokkos.variant_decls rdc_build = true /\
  violated Kokkos.package rdc_build = [] /\
  List.filter (enabled rdc_build) (flag_variant_names Kokkos.variant_decls)
    = ["serial"; "cuda"; "rdc"] /\
  Kokkos.cmake_args rdc_build
    = Ok ["-DKOKKOS_ENABLE_SERIAL=ON"; "-DKOKKOS_ENABLE_CUDA=ON"] /\
  Kokkos.cmake_args rdc_build
    = Kokkos.cmake_args (with_variant "rdc" (VBool false) rdc_build).
Proof.
  repeat split; try (vm_compute; reflexivity).
  - vm_compute. repeat (first [left; reflexivity | right]).
  - vm_compute. repeat (first [left; reflexivity | right]).
Qed.

(** C2, as stated, fails: with no override the effective value of
    [host_arch], and of [gpu_arch], is the declared default ['none'], which
    is not among the declared values. *)
Lemma arch_default_not_declared :
  legal_value Kokkos.host_arch_variant
    (effective_value Kokkos.host_arch_variant None) = false /\
  legal_value Kokkos.gpu_arch_variant
    (effective_value Kokkos.gpu_arch_variant None) = false.
Proof. split; reflexivity. Qed.

(** C2, amended: [host_arch] declares 14 architecture names and
    [gpu_arch] declares 11, and both declare the default ['none'], which is
    not among them. For either variant, the effective value of a build the
    host accepts is the default ['none'], when nothing is overridden, or the
    explicitly overridden value, which is then one of the declared names. *)
Theorem arch_value_none_or_declared :
  var_values Kokkos.host_arch_variant
    = Some [ "AMDAVX"; "ARMv80"; "ARMv81"; "ARMv8-ThunderX";
             "Power7"; "Power8"; "Power9";
             "WSM"; "SNB"; "HSW"; "BDW"; "SKX"; "KNC"; "KNL" ] /\
  var_values Kokkos.gpu_arch_variant
    = Some [ "Kepler30"; "Kepler32"; "Kepler35"; "Kepler37";
             "Maxwell50"; "Maxwell52"; "Maxwell53";
             "Pascal60"; "Pascal61"; "Volta70"; "Volta72" ] /\
  forall d, In d [Kokkos.host_arch_variant; Kokkos.gpu_arch_variant] ->
    In d Kokkos.variant_decls /\
    var_default d = VStr "none" /\
    legal_value d (var_default d) = false /\
    forall override v,
      resolve_variant d override = Some v ->
      v = effective_value d override /\
      ((override = None /\ v = VStr "none") \/
       (exists s vals,
          override = Some (VStr s) /\ v = VStr s /\
          var_values d = Some vals /\ In s vals /\ s <> "none")).
Proof.
  split; [reflexivity |]. split; [reflexivity |].
  intros d Hd.
  assert (Hdecl : In d Kokkos.variant_decls).
  { destruct Hd as [<- | [<- | []]]; simpl;
      repeat (first [left; reflexivity | right]). }
  assert (Hdef : var_default d = VStr "none")
    by (destruct Hd as [<- | [<- | []]]; reflexivity).
  assert (Hnone : legal_value d (VStr "none") = false)
    by (destruct Hd as [<- | [<- | []]]; reflexivity).
  split; [exact Hdecl |]. split; [exact Hdef |].
  split; [now rewrite Hdef |].
  intros override v Hres. destruct override as [w |]; simpl in Hres.
  - destruct (legal_value d w) eqn:Hlegal; [| discriminate Hres].
    injection Hres as <-. split; [reflexivity |]. right.
    unfold legal_value in Hlegal, Hnone.
    destruct (var_values d) as [vals |] eqn:Hvals.
    + destruct w as [b | s]; [discriminate Hlegal |].
      exists s, vals. repeat split.
      * apply existsb_exists in Hlegal as [x [Hin Heq]].
        apply String.eqb_eq in Heq. now subst x.
      * intros ->. rewrite Hnone in Hlegal. discriminate Hlegal.
    + exfalso. destruct Hd as [<- | [<- | []]]; discriminate Hvals.
  - injection Hres as <-. split; [reflexivity |]. left. now split.
Qed.

Lemma arch_value_none_or_declared_witness :
  (resolve_variant Kokkos.gpu_arch_variant (Some (VStr "Volta70")) = Some (VStr "Volta70") /\
   In "Volta70" Kokkos.gpu_values) /\
  resolve_variant Kokkos.host_arch_variant None = Some (VStr "none") /\
  resolve_variant Kokkos.host_arch_variant (Some (VStr "none")) = None.
Proof.
  destruct arch_value_none_or_declared as (_ & _ & H).
  split; [| split; reflexivity].
  destruct (H Kokkos.gpu_arch_variant) as (_ & _ & _ & Hres).
  { simpl. right. left. reflexivity. }
  destruct (Hres (Some (VStr "Volta70")) (VStr "Volta70")) as [_ [[Hn _] | Hs]].
  { reflexivity. }
  { discriminate Hn. }
  destruct Hs as (s & vals & Hov & _ & Hvals & Hin & _).
  injection Hov as <-. injection Hvals as <-.
  split; [reflexivity | exact Hin].
Defined.

(** C3: when both [host_arch] and [gpu_arch] differ from ['none'],
    [cmake_args] returns a list with exactly one architecture flag,
    [-DKOKKOS_ARCH=<host>,<gpu>], the host architecture first. *)
Theorem cmake_args_both_archs (spec : Spec) (h g : string) :
  variants spec !! "host_arch" = Some (VStr h) ->
  variants spec !! "gpu_arch" = Some (VStr g) ->
  h <> "none" -> g <> "none" ->
  exists args,
    Kokkos.cmake_args spec = Ok args /\
    List.filter is_arch_flag args = ["-DKOKKOS_ARCH=" +:+ h +:+ "," +:+ g].
Proof.
  intros Hh Hg Hhn Hgn.
  eexists. split; [apply (cmake_args_shape spec h g Hh Hg) |].
  rewrite (cmake_args_arch_flags spec h g Hh Hg _ (cmake_args_shape spec h g Hh Hg)).
  unfold arch_flag, selected_archs.
  apply String.eqb_neq in Hhn, Hgn. rewrite Hhn, Hgn. reflexivity.
Qed.

Lemma cmake_args_both_archs_witness :
  exists args,
    Kokkos.cmake_args skx_pascal_build = Ok args /\
    List.filter is_arch_flag args = ["-DKOKKOS_ARCH=SKX,Pascal60"].
Proof.
  apply (cmake_args_both_archs skx_pascal_build "SKX" "Pascal60").
  - vm_compute. reflexivity.
  - vm_compute. reflexivity.
  - discriminate.
  - discriminate.
Defined.

(** C4: when exactly one of [host_arch] and [gpu_arch] differs from
    ['none'], the output of [cmake_args] has a single architecture flag,
    naming that architecture alone; when both are ['none'], the output has
    no architecture flag. *)
Theorem cmake_args_one_or_no_arch (spec : Spec) (h g : string) :
  variants spec !! "host_arch" = Some (VStr h) ->
  variants spec !! "gpu_arch" = Some (VStr g) ->
  exists args,
    Kokkos.cmake_args spec = Ok args /\
    (h <> "none" -> g = "none" ->
     List.filter is_arch_flag args = ["-DKOKKOS_ARCH=" +:+ h]) /\
    (h = "none" -> g <> "none" ->
     List.filter is_arch_flag args = ["-DKOKKOS_ARCH=" +:+ g]) /\
    (h = "none" -> g = "none" ->
     List.filter is_arch_flag args = []).
Proof.
  intros Hh Hg.
  eexists. split; [apply (cmake_args_shape spec h g Hh Hg) |].
  rewrite (cmake_args_arch_flags spec h g Hh Hg _ (cmake_args_shape spec h g Hh Hg)).
  unfold arch_flag, selected_archs. repeat split.
  - intros Hhn%String.eqb_neq ->. rewrite Hhn. reflexivity.
  - intros -> Hgn%String.eqb_neq. rewrite Hgn. reflexivity.
  - intros -> ->. reflexivity.
Qed.

Lemma cmake_args_one_or_no_arch_witness :
  (exists args, Kokkos.cmake_args hsw_build = Ok args /\
                List.filter is_arch_flag args = ["-DKOKKOS_ARCH=HSW"]) /\
  (exists args, Kokkos.cmake_args volta_build = Ok args /\
                List.filter is_arch_flag args = ["-DKOKKOS_ARCH=Volta70"]) /\
  (exists args, Kokkos.cmake_args default_build = Ok args /\
                List.filter is_arch_flag args = []).
Proof.
  split; [| split].
  - destruct (cmake_args_one_or_no_arch hsw_build "HSW" "none")
      as (args & Hargs & Hhost & _ & _);
      [vm_compute; reflexivity | vm_compute; reflexivity |].
    exists args. split; [exact Hargs |].
    apply Hhost; [discriminate | reflexivity].
  - destruct (cmake_args_one_or_no_arch volta_build "none" "Volta70")
      as (args & Hargs & _ & Hgpu & _);
      [vm_compute; reflexivity | vm_compute; reflexivity |].
    exists args. split; [exact Hargs |].
    apply Hgpu; [reflexivity | discriminate].
  - destruct (cmake_args_one_or_no_arch default_build "none" "none")
      as (args & Hargs & _ & _ & Hnone);
      [vm_compute; reflexivity | vm_compute; reflexivity |].
    exists args. split; [exact Hargs |].
    apply Hnone; reflexivity.
Defined.

(** C5: [cmake_args] returns a flag list, and raises nothing, on every spec
    that maps the declared variants to values of their kind, whether or not
    the spec respects the declared conflicts. *)
Theorem cmake_args_total (spec : Spec) :
  maps_declared Kokkos.variant_decls spec = true ->
  exists args, Kokkos.cmake_args spec = Ok args.
Proof.
  intros (h & g & Hh & Hg)%maps_declared_archs.
  eexists. apply (cmake_args_shape spec h g Hh Hg).
Qed.

Lemma cmake_args_total_witness :
  violated Kokkos.package gpu_without_cuda_build <> [] /\
  exists args, Kokkos.cmake_args gpu_without_cuda_build = Ok args.
Proof.
  split.
  - vm_compute. discriminate.
  - apply (cmake_args_total gpu_without_cuda_build). vm_compute. reflexivity.
Defined.

Lemma contains_gpu_arch spec p :
  contains ("gpu_arch=" +:+ p) spec = has_value spec "gpu_arch" (VStr p).
Proof. reflexivity. Qed.

(** C6: the recipe declares, for each of the eleven GPU architecture
    values, a conflict of [gpu_arch=<value>] with [~cuda] carrying the
    message 'Must specify CUDA backend to use a GPU architecture.', and
    that rule fires on every spec that selects the value with [cuda] off. *)
Theorem gpu_arch_conflicts_without_cuda :
  length Kokkos.gpu_values = 11 /\
  forall p, In p Kokkos.gpu_values ->
    let rule := mkConflict ("gpu_arch=" +:+ p) "~cuda"
                  (Some "Must specify CUDA backend to use a GPU architecture.") in
    In rule Kokkos.conflicts /\
    forall spec,
      variants spec !! "gpu_arch" = Some (VStr p) ->
      variants spec !! "cuda" = Some (VBool false) ->
      In rule (violated Kokkos.package spec).
Proof.
  split; [reflexivity |]. intros p Hp rule.
  assert (Hrule : In rule Kokkos.conflicts).
  { unfold Kokkos.conflicts. apply in_or_app. right. apply in_or_app. left.
    apply in_map_iff. exists p. split; [reflexivity | exact Hp]. }
  split; [exact Hrule |].
  intros spec Hgpu Hcuda. unfold violated. apply filter_In.
  split; [exact Hrule |].
  unfold conflict_fires, rule. cbn [conflict_spec conflict_when].
  rewrite contains_gpu_arch. apply andb_true_iff. split.
  - now apply has_value_true.
  - unfold contains. simpl. now apply has_value_true.
Qed.

Lemma gpu_arch_conflicts_without_cuda_witness :
  In (mkConflict "gpu_arch=Volta70" "~cuda"
        (Some "Must specify CUDA backend to use a GPU architecture."))
     (violated Kokkos.package gpu_without_cuda_build).
Proof.
  destruct gpu_arch_conflicts_without_cuda as [_ H].
  apply (H "Volta70").
  - simpl. repeat (first [left; reflexivity | right]).
  - vm_compute. reflexivity.
  - vm_compute. reflexivity.
Defined.

(** C7: the conflict rules can be met: at every declared version the
    build with all variants at their defaults breaks none of them, and so
    does a CUDA build of release 2.8.00 for a Volta GPU. *)
Theorem conflicts_satisfiable :
  Forall (fun v => maps_declared Kokkos.variant_decls
                     (default_spec Kokkos.package (ver_id v)) = true /\
                   violated Kokkos.package
                     (default_spec Kokkos.package (ver_id v)) = [])
         Kokkos.versions /\
  (exists v spec,
     In v (pkg_versions Kokkos.package) /\
     version spec = ver_id v /\
     maps_declared (pkg_variants Kokkos.package) spec = true /\
     violated Kokkos.package spec = []) /\
  violated Kokkos.package volta_build = [].
Proof.
  split; [| split].
  - unfold Kokkos.versions.
    repeat (apply Forall_cons; [split; vm_compute; reflexivity |]).
    apply Forall_nil.
  - exists (version_ "2.8.00"
              "1c72661f2d770517bff98837001b42b9c677d1df29f7493a1d7c008549aff630"),
           default_build.
    repeat split; try (vm_compute; reflexivity).
    simpl. right. left. reflexivity.
  - vm_compute. reflexivity.
Qed.

(** C8: the [py-pycparser] recipe is declarations only: a name, a home page
    and a source URL, two versions each with a checksum, one dependency,
    [py-setuptools] of type [build] with no condition, and no variant, no
    conflict and no method of its own. *)
Theorem pycparser_declarative :
  pkg_name PyPycparser.package = "py-pycparser" /\
  pkg_url PyPycparser.package
    = "https://pypi.io/packages/source/p/pycparser/pycparser-2.17.tar.gz" /\
  map ver_id (pkg_versions PyPycparser.package) = ["2.17"; "2.13"] /\
  Forall (fun v => ver_checksum v <> None /\ ver_branch v = None)
         (pkg_versions PyPycparser.package) /\
  pkg_dependencies PyPycparser.package
    = [ mkDependency "py-setuptools" None (Some [build]) ] /\
  length (pkg_dependencies PyPycparser.package) = 1 /\
  pkg_variants PyPycparser.package = [] /\
  pkg_conflicts PyPycparser.package = [] /\
  pkg_methods PyPycparser.package = [].
Proof.
  repeat split; try reflexivity.
  repeat (apply Forall_cons; [split; [discriminate | reflexivity] |]).
  apply Forall_nil.
Qed.

Lemma contains_on_with_variant_ne name n v spec :
  name <> n ->
  contains (String "+" n) (with_variant name v spec) = contains (String "+" n) spec.
Proof.
  intros Hne. unfold contains, with_variant. simpl. unfold has_value. simpl.
  now rewrite lookup_insert_ne.
Qed.

Lemma variant_value_with_variant_ne name n v spec :
  name <> n ->
  variant_value (with_variant name v spec) n = variant_value spec n.
Proof.
  intros Hne. unfold variant_value, with_variant. simpl.
  now rewrite lookup_insert_ne.
Qed.

(** [cmake_args] never reads the variant [rdc]. *)
Lemma cmake_args_with_rdc v spec :
  Kokkos.cmake_args (with_variant "rdc" v spec) = Kokkos.cmake_args spec.
Proof.
  unfold Kokkos.cmake_args.
  rewrite !contains_on_with_variant_ne by discriminate.
  rewrite !variant_value_with_variant_ne by discriminate.
  reflexivity.
Qed.

(** C9: [cmake_args] emits no flag for [rdc]: on every spec with [rdc]
    enabled the output is the output for the same spec with [rdc] disabled,
    although [rdc] is one of the four declared CUDA options and each of the
    other three, when enabled, puts its flag in the output exactly once. *)
Theorem cmake_args_ignores_rdc :
  Kokkos.cuda_options = ["force_uvm"; "use_ldg"; "rdc"; "enable_lambda"] /\
  (forall spec,
     enabled spec "rdc" = true ->
     Kokkos.cmake_args spec
     = Kokkos.cmake_args (with_variant "rdc" (VBool false) spec)) /\
  (forall spec h g name flag,
     variants spec !! "host_arch" = Some (VStr h) ->
     variants spec !! "gpu_arch" = Some (VStr g) ->
     In (name, flag)
        [ ("force_uvm", "-DKOKKOS_ENABLE_CUDA_UVM=ON");
          ("use_ldg", "-DKOKKOS_ENABLE_CUDA_LDG_INTRINSIC=ON");
          ("enable_lambda", "-DKOKKOS_ENABLE_CUDA_LAMBDA=ON") ] ->
     enabled spec name = true ->
     exists args, Kokkos.cmake_args spec = Ok args /\
                  count_occ string_dec args flag = 1).
Proof.
  split; [reflexivity |]. split.
  - intros spec _. now rewrite cmake_args_with_rdc.
  - intros spec h g name flag Hh Hg Hin Hen.
    apply (cmake_args_emits spec h g Hh Hg name flag); [| exact Hen].
    simpl in Hin. destruct Hin as [<- | [<- | [<- | []]]];
      simpl; repeat (first [left; reflexivity | right]).
Qed.

Lemma cmake_args_ignores_rdc_witness :
  Kokkos.cmake_args cuda_options_build
  = Kokkos.cmake_args (with_variant "rdc" (VBool false) cuda_options_build) /\
  exists args, Kokkos.cmake_args cuda_options_build = Ok args /\
               count_occ string_dec args "-DKOKKOS_ENABLE_CUDA_UVM=ON" = 1.
Proof.
  destruct cmake_args_ignores_rdc as (_ & Hsame & Hothers). split.
  - apply (Hsame cuda_options_build). vm_compute. reflexivity.
  - apply (Hothers cuda_options_build "none" "none" "force_uvm").
    + vm_compute. reflexivity.
    + vm_compute. reflexivity.
    + simpl. left. reflexivity.
    + vm_compute. reflexivity.
Defined.

(** C10: on every spec with [enable_profile_load_print] enabled,
    [cmake_args] puts [-DKOKKOS_ENABLE_PROFILING_LOAD_PRINT=OFF] in the
    output, once, and never the [=ON] form; the three [disable_*] variants,
    when enabled, likewise put their [=OFF] flags in the output. *)
Theorem profile_load_print_emits_off (spec : Spec) (h g : string) :
  variants spec !! "host_arch" = Some (VStr h) ->
  variants spec !! "gpu_arch" = Some (VStr g) ->
  enabled spec "enable_profile_load_print" = true ->
  exists args,
    Kokkos.cmake_args spec = Ok args /\
    count_occ string_dec args "-DKOKKOS_ENABLE_PROFILING_LOAD_PRINT=OFF" = 1 /\
    ~ In "-DKOKKOS_ENABLE_PROFILING_LOAD_PRINT=ON" args /\
    (enabled spec "disable_profiling" = true ->
     In "-DKOKKOS_ENABLE_PROFILING=OFF" args) /\
    (enabled spec "disable_dualview_modify_check" = true ->
     In "-DKOKKOS_ENABLE_DEBUG_DUALVIEW_MODIFY_CHECK=OFF" args) /\
    (enabled spec "disable_deprecated_code" = true ->
     In "-DKOKKOS_ENABLE_DEPRECATED_CODE=OFF" args).
Proof.
  intros Hh Hg Hen.
  pose proof (cmake_args_shape spec h g Hh Hg) as Hshape.
  pose proof (fun f => cmake_args_In spec h g Hh Hg _ f Hshape) as Hmem.
  eexists. split; [exact Hshape |].
  assert (Hrow : forall name flag,
            In (name, flag) flag_table -> enabled spec name = true ->
            In flag (emit backend_flags spec ++ arch_flag h g
                     ++ emit option_flags spec)).
  { intros name flag Hin Hon. apply (Hmem flag). left. now exists name. }
  split; [| split; [| repeat split]].
  - apply (proj1 (NoDup_count_occ' string_dec _)
             (cmake_args_NoDup spec h g Hh Hg _ Hshape)).
    apply (Hrow "enable_profile_load_print"); [| exact Hen].
    simpl. repeat (first [left; reflexivity | right]).
  - intros Hin. apply Hmem in Hin as [[n [Hn _]] | Harch].
    + simpl in Hn.
      repeat (destruct Hn as [Hn | Hn]; [discriminate Hn |]). destruct Hn.
    + apply arch_flag_is_arch in Harch. discriminate Harch.
  - intros Hon. apply (Hrow "disable_profiling"); [| exact Hon].
    simpl. repeat (first [left; reflexivity | right]).
  - intros Hon. apply (Hrow "disable_dualview_modify_check"); [| exact Hon].
    simpl. repeat (first [left; reflexivity | right]).
  - intros Hon. apply (Hrow "disable_deprecated_code"); [| exact Hon].
    simpl. repeat (first [left; reflexivity | right]).
Qed.

Lemma profile_load_print_emits_off_witness :
  exists args,
    Kokkos.cmake_args profiling_build = Ok args /\
    count_occ string_dec args "-DKOKKOS_ENABLE_PROFILING_LOAD_PRINT=OFF" = 1 /\
    In "-DKOKKOS_ENABLE_PROFILING=OFF" args.
Proof.
  destruct (profile_load_print_emits_off profiling_build "none" "none")
    as (args & Hargs & Hcount & _ & Hprof & _).
  - vm_compute. reflexivity.
  - vm_compute. reflexivity.
  - vm_compute. reflexivity.
  - exists args. repeat split; [exact Hargs | exact Hcount |].
    apply Hprof. vm_compute. reflexivity.
Defined.

(** ** Further properties of [cmake_args] *)

Lemma cmake_args_no_host spec :
  variants spec !! "host_arch" = None ->
  Kokkos.cmake_args spec = Raise (KeyError "host_arch").
Proof.
  intros H. unfold Kokkos.cmake_args, variant_value. rewrite H. reflexivity.
Qed.

Lemma cmake_args_no_gpu spec v :
  variants spec !! "host_arch" = Some v ->
  variants spec !! "gpu_arch" = None ->
  Kokkos.cmake_args spec = Raise (KeyError "gpu_arch").
Proof.
  intros Hh Hg. unfold Kokkos.cmake_args, variant_value. rewrite Hh, Hg.
  reflexivity.
Qed.

Lemma cmake_args_bool_arch spec a b :
  variants spec !! "host_arch" = Some a ->
  variants spec !! "gpu_arch" = Some b ->
  (exists x, a = VBool x) \/ (exists x, b = VBool x) ->
  Kokkos.cmake_args spec = Raise TypeError.
Proof.
  intros Hh Hg Hbool. unfold Kokkos.cmake_args, variant_value.
  rewrite Hh, Hg. cbv beta iota zeta delta [bind].
  destruct a as [x | h], b as [y | g];
    try (destruct Hbool as [[x' Hx] | [x' Hx]]; discriminate Hx);
    unfold py_ne; cbn [Value_eqb negb if_ append app];
    try destruct (String.eqb h "none"); try destruct (String.eqb g "none");
    reflexivity.
Qed.

(** X1: [cmake_args] returns a flag list exactly on the specs in which
    both [host_arch] and [gpu_arch] are present and hold strings. *)
Theorem cmake_args_succeeds_iff (spec : Spec) :
  (exists args, Kokkos.cmake_args spec = Ok args) <->
  (exists h g, variants spec !! "host_arch" = Some (VStr h) /\
               variants spec !! "gpu_arch" = Some (VStr g)).
Proof.
  split.
  - intros [args Hargs].
    destruct (variants spec !! "host_arch") as [a |] eqn:Hh;
      [| rewrite (cmake_args_no_host spec Hh) in Hargs; discriminate].
    destruct (variants spec !! "gpu_arch") as [b |] eqn:Hg;
      [| rewrite (cmake_args_no_gpu spec a Hh Hg) in Hargs; discriminate].
    destruct a as [x | h].
    { rewrite (cmake_args_bool_arch spec _ _ Hh Hg) in Hargs; [discriminate |].
      left. now exists x. }
    destruct b as [y | g].
    { rewrite (cmake_args_bool_arch spec _ _ Hh Hg) in Hargs; [discriminate |].
      right. now exists y. }
    now exists h, g.
  - intros (h & g & Hh & Hg). eexists. apply (cmake_args_shape spec h g Hh Hg).
Qed.

Lemma cmake_args_succeeds_iff_witness :
  exists args, Kokkos.cmake_args hsw_build = Ok args.
Proof.
  apply (proj2 (cmake_args_succeeds_iff hsw_build)).
  exists "HSW", "none". split; vm_compute; reflexivity.
Defined.

(** X2: the errors of [cmake_args]: without [host_arch] in the spec it
    raises [KeyError('host_arch')]; with [host_arch] but without [gpu_arch]
    it raises [KeyError('gpu_arch')]; the on/off variants it tests may all
    be missing. *)
Theorem cmake_args_missing_arch (spec : Spec) :
  (variants spec !! "host_arch" = None ->
   Kokkos.cmake_args spec = Raise (KeyError "host_arch")) /\
  (variants spec !! "host_arch" <> None ->
   variants spec !! "gpu_arch" = None ->
   Kokkos.cmake_args spec = Raise (KeyError "gpu_arch")) /\
  (forall h g,
     variants spec = {[ "host_arch" := VStr h; "gpu_arch" := VStr g ]} ->
     Kokkos.cmake_args spec = Ok (arch_flag h g)).
Proof.
  split; [| split].
  - apply cmake_args_no_host.
  - intros Hh Hg. destruct (variants spec !! "host_arch") as [v |] eqn:E;
      [| congruence].
    now apply (cmake_args_no_gpu spec v).
  - intros h g Hv.
    assert (Hh : variants spec !! "host_arch" = Some (VStr h)).
    { rewrite Hv. now rewrite lookup_insert_eq. }
    assert (Hg : variants spec !! "gpu_arch" = Some (VStr g)).
    { rewrite Hv. rewrite lookup_insert_ne by discriminate.
      now rewrite lookup_singleton_eq. }
    rewrite (cmake_args_shape spec h g Hh Hg).
    assert (Hoff : forall tbl,
              forallb (fun e => negb (String.eqb (fst e) "host_arch")
                                && negb (String.eqb (fst e) "gpu_arch")) tbl = true ->
              emit tbl spec = []).
    { induction tbl as [| [n f] tbl IH]; [reflexivity |].
      simpl. intros [[Hn1 Hn2]%andb_true_iff Htl]%andb_true_iff.
      rewrite emit_cons, (IH Htl).
      apply negb_true_iff, String.eqb_neq in Hn1, Hn2.
      destruct (enabled spec n) eqn:En; [| reflexivity].
      apply enabled_true in En. rewrite Hv in En.
      rewrite lookup_insert_ne in En by congruence.
      rewrite lookup_singleton_ne in En by congruence. discriminate. }
    rewrite !Hoff by reflexivity. now rewrite app_nil_r.
Qed.

Lemma cmake_args_missing_arch_witness :
  Kokkos.cmake_args (mkSpec "2.8.00" {[ "host_arch" := VStr "HSW" ]})
  = Raise (KeyError "gpu_arch").
Proof.
  destruct (cmake_args_missing_arch (mkSpec "2.8.00" {[ "host_arch" := VStr "HSW" ]}))
    as (_ & H & _).
  apply H.
  - vm_compute. discriminate.
  - vm_compute. reflexivity.
Defined.

(** X3: the flags come out in the order of the statements of
    [cmake_args], whatever is selected: the enabled backend and build
    flags, then the architecture flag if any, then the enabled CUDA and
    Kokkos option flags. *)
Theorem cmake_args_statement_order (spec : Spec) (h g : string) :
  variants spec !! "host_arch" = Some (VStr h) ->
  variants spec !! "gpu_arch" = Some (VStr g) ->
  Kokkos.cmake_args spec =
  Ok (emit backend_flags spec ++ arch_flag h g ++ emit option_flags spec).
Proof. intros Hh Hg. exact (cmake_args_shape spec h g Hh Hg). Qed.

Lemma cmake_args_statement_order_witness :
  Kokkos.cmake_args uvm_volta_build =
  Ok [ "-DKOKKOS_ENABLE_SERIAL=ON"; "-DKOKKOS_ENABLE_QTHREADS=ON";
       "-DKOKKOS_ENABLE_CUDA=ON"; "-DKOKKOS_ARCH=Volta70";
       "-DKOKKOS_ENABLE_CUDA_UVM=ON" ].
Proof.
  rewrite (cmake_args_statement_order uvm_volta_build "none" "Volta70");
    vm_compute; reflexivity.
Defined.

(** X4: for each of the seventeen on/off variants [cmake_args] tests, its
    flag is in the output if and only if the variant is enabled, and the
    output never holds a flag twice. *)
Theorem cmake_args_flag_iff_enabled (spec : Spec) (h g name flag : string) :
  variants spec !! "host_arch" = Some (VStr h) ->
  variants spec !! "gpu_arch" = Some (VStr g) ->
  In (name, flag) flag_table ->
  exists args,
    Kokkos.cmake_args spec = Ok args /\
    NoDup args /\
    (In flag args <-> enabled spec name = true).
Proof.
  intros Hh Hg Hin.
  pose proof (cmake_args_shape spec h g Hh Hg) as Hshape.
  eexists. split; [exact Hshape |]. split.
  - exact (cmake_args_NoDup spec h g Hh Hg _ Hshape).
  - split.
    + intros Hf. destruct (enabled spec name) eqn:En; [reflexivity |].
      exfalso. exact (cmake_args_omits spec h g Hh Hg name flag _ Hin En Hshape Hf).
    + intros En. apply (cmake_args_In spec h g Hh Hg _ flag Hshape).
      left. now exists name.
Qed.

Lemma cmake_args_flag_iff_enabled_witness :
  exists args,
    Kokkos.cmake_args uvm_volta_build = Ok args /\
    NoDup args /\
    (In "-DKOKKOS_ENABLE_OPENMP=ON" args <-> enabled uvm_volta_build "openmp" = true).
Proof.
  apply (cmake_args_flag_iff_enabled uvm_volta_build "none" "Volta70" "openmp").
  - vm_compute. reflexivity.
  - vm_compute. reflexivity.
  - simpl. right. left. reflexivity.
Defined.

Lemma emit_length tbl spec :
  length (emit tbl spec) = length (List.filter (enabled spec) (map fst tbl)).
Proof.
  induction tbl as [| [n f] tbl IH]; [reflexivity |].
  rewrite emit_cons. simpl. destruct (enabled spec n); simpl; now rewrite IH.
Qed.

Lemma arch_flag_length h g :
  length (arch_flag h g) =
  if String.eqb h "none" && String.eqb g "none" then 0 else 1.
Proof.
  unfold arch_flag, selected_archs.
  destruct (String.eqb h "none"), (String.eqb g "none"); reflexivity.
Qed.

(** X5: the number of flags in the output is the number of enabled
    variants among the seventeen tested, plus one when an architecture is
    selected; it is at most eighteen. *)
Theorem cmake_args_length (spec : Spec) (h g : string) :
  variants spec !! "host_arch" = Some (VStr h) ->
  variants spec !! "gpu_arch" = Some (VStr g) ->
  exists args,
    Kokkos.cmake_args spec = Ok args /\
    length args =
      length (List.filter (enabled spec) (map fst flag_table))
      + (if String.eqb h "none" && String.eqb g "none" then 0 else 1) /\
    length args <= 18.
Proof.
  intros Hh Hg.
  eexists. split; [exact (cmake_args_shape spec h g Hh Hg) |].
  assert (Hlen : length (emit backend_flags spec ++ arch_flag h g
                         ++ emit option_flags spec)
                 = length (List.filter (enabled spec) (map fst flag_table))
                   + (if String.eqb h "none" && String.eqb g "none" then 0 else 1)).
  { rewrite !length_app, !emit_length, arch_flag_length.
    unfold flag_table. rewrite map_app, filter_app, length_app. lia. }
  split; [exact Hlen |].
  rewrite Hlen.
  pose proof (filter_length_le (enabled spec) (map fst flag_table)) as Hle.
  change (length (map fst flag_table)) with 17 in Hle.
  destruct (String.eqb h "none" && String.eqb g "none"); lia.
Qed.

Lemma cmake_args_length_witness :
  exists args,
    Kokkos.cmake_args uvm_volta_build = Ok args /\
    length args = 5.
Proof.
  destruct (cmake_args_length uvm_volta_build "none" "Volta70")
    as (args & Hargs & Hlen & _).
  - vm_compute. reflexivity.
  - vm_compute. reflexivity.
  - exists args. split; [exact Hargs |]. rewrite Hlen. vm_compute. reflexivity.
Defined.

Lemma contains_on_agree n (s1 s2 : Spec) :
  variants s1 !! n = variants s2 !! n ->
  contains (String "+" n) s1 = contains (String "+" n) s2.
Proof.
  intros H. unfold contains. simpl. unfold has_value. now rewrite H.
Qed.

Lemma variant_value_agree n (s1 s2 : Spec) :
  variants s1 !! n = variants s2 !! n ->
  variant_value s1 n = variant_value s2 n.
Proof. intros H. unfold variant_value. now rewrite H. Qed.

(** X6: the result of [cmake_args], flag list or error, depends on the
    spec only through the nineteen variants it reads: two specs that agree
    on those give the same result, whatever their version and their other
    variants are. *)
Theorem cmake_args_reads_only (s1 s2 : Spec) :
  (forall n, In n read_names -> variants s1 !! n = variants s2 !! n) ->
  Kokkos.cmake_args s1 = Kokkos.cmake_args s2.
Proof.
  intros Hagree. unfold Kokkos.cmake_args.
  rewrite !(contains_on_agree _ s1 s2)
    by (apply Hagree; simpl; repeat (first [left; reflexivity | right])).
  rewrite !(variant_value_agree _ s1 s2)
    by (apply Hagree; simpl; repeat (first [left; reflexivity | right])).
  reflexivity.
Qed.

Lemma cmake_args_reads_only_witness :
  Kokkos.cmake_args (mkSpec "2.5.00" (variants rdc_build))
  = Kokkos.cmake_args cuda_build.
Proof.
  apply (cmake_args_reads_only (mkSpec "2.5.00" (variants rdc_build)) cuda_build).
  intros n Hn. unfold rdc_build, with_variant at 1. simpl variants.
  apply lookup_insert_ne. intros <-. simpl in Hn.
  repeat (destruct Hn as [Hn | Hn]; [discriminate Hn |]). destruct Hn.
Defined.

Lemma fst_unique {A B} (l : list (A * B)) a f f' :
  NoDup (map fst l) -> In (a, f) l -> In (a, f') l -> f = f'.
Proof.
  induction l as [| [x y] l IH]; simpl; [tauto |].
  intros Hnd%NoDup_cons_iff [Ha | Ha] [Hb | Hb]; destruct Hnd as [Hnotin Hnd].
  - congruence.
  - exfalso. apply Hnotin. apply in_map_iff. exists (a, f'). split; [| assumption].
    simpl. congruence.
  - exfalso. apply Hnotin. apply in_map_iff. exists (a, f). split; [| assumption].
    simpl. congruence.
  - now apply IH.
Qed.

Lemma flag_table_names_NoDup : NoDup (map fst flag_table).
Proof.
  apply (NoDup_count_occ' string_dec). intros n Hin.
  simpl in Hin.
  repeat (destruct Hin as [<- | Hin]; [reflexivity |]). destruct Hin.
Qed.

Lemma enabled_with_variant_eq name b spec :
  enabled (with_variant name (VBool b) spec) name = b.
Proof.
  unfold enabled, contains, with_variant. simpl. unfold has_value. simpl.
  rewrite lookup_insert_eq. simpl. now destruct b.
Qed.

Lemma enabled_with_variant_ne name n v spec :
  name <> n -> enabled (with_variant name v spec) n = enabled spec n.
Proof. intros Hne. now apply contains_on_with_variant_ne. Qed.

(** Switching [name] changes, in the flags of a table, the flag of [name]
    only. *)
Lemma emit_switch tbl name flag spec :
  (forall n f, In (n, f) tbl -> (n = name <-> f = flag)) ->
  remove string_dec flag (emit tbl (with_variant name (VBool true) spec))
  = emit tbl (with_variant name (VBool false) spec).
Proof.
  induction tbl as [| [n f] tbl IH]; intros Hrows; [reflexivity |].
  rewrite !emit_cons, remove_app.
  rewrite IH by (intros n' f' Hin; apply Hrows; now right).
  f_equal.
  destruct (string_dec n name) as [-> | Hne].
  - assert (f = flag) by (apply (Hrows name f); [now left | reflexivity]).
    subst f. rewrite !enabled_with_variant_eq. simpl.
    destruct (string_dec flag flag); [reflexivity | congruence].
  - assert (Hf : f <> flag).
    { intros ->. apply Hne. apply (Hrows n flag); [now left | reflexivity]. }
    rewrite !enabled_with_variant_ne by congruence.
    destruct (enabled spec n); [| reflexivity].
    simpl. destruct (string_dec flag f); [congruence | reflexivity].
Qed.

Lemma flag_table_not_arch_name name flag :
  In (name, flag) flag_table -> name <> "host_arch" /\ name <> "gpu_arch".
Proof.
  intros Hin. split; intros ->; simpl in Hin;
    repeat (destruct Hin as [Hin | Hin]; [discriminate Hin |]); destruct Hin.
Qed.

(** X7: the tested variants act independently: switching one of them on
    puts its flag in the output, and taking that flag out again gives the
    output for the variant switched off, in the same order. *)
Theorem cmake_args_switch (spec : Spec) (h g name flag : string) :
  variants spec !! "host_arch" = Some (VStr h) ->
  variants spec !! "gpu_arch" = Some (VStr g) ->
  In (name, flag) flag_table ->
  exists on off,
    Kokkos.cmake_args (with_variant name (VBool true) spec) = Ok on /\
    Kokkos.cmake_args (with_variant name (VBool false) spec) = Ok off /\
    In flag on /\ ~ In flag off /\
    remove string_dec flag on = off.
Proof.
  intros Hh Hg Hin.
  destruct (flag_table_not_arch_name name flag Hin) as [Hnh Hng].
  assert (Hlk : forall v,
            variants (with_variant name v spec) !! "host_arch" = Some (VStr h) /\
            variants (with_variant name v spec) !! "gpu_arch" = Some (VStr g)).
  { intros v. unfold with_variant. simpl.
    rewrite !lookup_insert_ne by assumption. now split. }
  destruct (Hlk (VBool true)) as [Hh1 Hg1].
  destruct (Hlk (VBool false)) as [Hh0 Hg0].
  pose proof (cmake_args_shape _ h g Hh1 Hg1) as Hon.
  pose proof (cmake_args_shape _ h g Hh0 Hg0) as Hoff.
  assert (Hrows : forall n f, In (n, f) flag_table -> (n = name <-> f = flag)).
  { intros n f Hnf. split.
    - intros ->. eapply fst_unique; eauto using flag_table_names_NoDup.
    - intros ->. eapply snd_unique; eauto using flag_table_NoDup. }
  do 2 eexists. split; [exact Hon |]. split; [exact Hoff |]. split; [| split].
  - apply (cmake_args_In _ h g Hh1 Hg1 _ flag Hon). left. exists name.
    split; [exact Hin | apply enabled_with_variant_eq].
  - apply (cmake_args_omits _ h g Hh0 Hg0 name flag _ Hin
             (enabled_with_variant_eq name false spec) Hoff).
  - rewrite !remove_app.
    rewrite !emit_switch
      by (intros n f Hnf; apply Hrows; unfold flag_table; apply in_or_app; tauto).
    f_equal. f_equal. apply notin_remove.
    intros Ha%arch_flag_is_arch.
    pose proof flag_table_no_arch as Hna. rewrite forallb_forall in Hna.
    apply Hna in Hin. simpl in Hin. now rewrite Ha in Hin.
Qed.

Lemma cmake_args_switch_witness :
  exists on off,
    Kokkos.cmake_args (with_variant "openmp" (VBool true) uvm_volta_build) = Ok on /\
    Kokkos.cmake_args (with_variant "openmp" (VBool false) uvm_volta_build) = Ok off /\
    In "-DKOKKOS_ENABLE_OPENMP=ON" on /\ ~ In "-DKOKKOS_ENABLE_OPENMP=ON" off /\
    remove string_dec "-DKOKKOS_ENABLE_OPENMP=ON" on = off.
Proof.
  apply (cmake_args_switch uvm_volta_build "none" "Volta70" "openmp").
  - vm_compute. reflexivity.
  - vm_compute. reflexivity.
  - simpl. right. left. reflexivity.
Defined.

(** ** Further properties of the declarations *)

Lemma conflict_violated (c : Conflict) spec :
  In c Kokkos.conflicts -> conflict_fires spec c = true ->
  In c (violated Kokkos.package spec).
Proof. intros Hin Hf. unfold violated. apply filter_In. now split. Qed.

Lemma cuda_option_rule name :
  In name Kokkos.cuda_options ->
  In (mkConflict ("+" +:+ name) "~cuda"
        (Some ("Must enable CUDA to use " +:+ name +:+ ".")))
     Kokkos.conflicts.
Proof.
  intros Hin. unfold Kokkos.conflicts. apply in_or_app. right.
  apply in_or_app. right. simpl in Hin.
  destruct Hin as [<- | [<- | [<- | [<- | []]]]]; simpl;
    repeat (first [left; reflexivity | right]).
Qed.



(** X8: each of the four CUDA options, [rdc] included, is declared in
    conflict with [~cuda], with the message 'Must enable CUDA to use
    <option>.', and the rule fires on every spec that has the option on and
    [cuda] off. *)
Theorem cuda_options_conflict_without_cuda (name : string) :
  In name Kokkos.cuda_options ->
  let rule := mkConflict ("+" +:+ name) "~cuda"
                (Some ("Must enable CUDA to use " +:+ name +:+ ".")) in
  In rule Kokkos.conflicts /\
  forall spec,
    variants spec !! name = Some (VBool true) ->
    variants spec !! "cuda" = Some (VBool false) ->
    In rule (violated Kokkos.package spec).
Proof.
  intros Hin rule. split; [now apply cuda_option_rule |].
  intros spec Hon Hcuda. apply conflict_violated; [now apply cuda_option_rule |].
  unfold conflict_fires, rule. cbn [conflict_spec conflict_when].
  apply andb_true_iff. split.
  - now apply enabled_true.
  - unfold contains. simpl. now apply has_value_true.
Qed.

Lemma cuda_options_conflict_without_cuda_witness :
  In (mkConflict "+force_uvm" "~cuda" (Some "Must enable CUDA to use force_uvm."))
     (violated Kokkos.package uvm_without_cuda_build).
Proof.
  destruct (cuda_options_conflict_without_cuda "force_uvm") as [_ H].
  - simpl. left. reflexivity.
  - apply (H uvm_without_cuda_build); vm_compute; reflexivity.
Defined.



(** X10: the dependency edges follow the backend flags: [hwloc@:1] is
    always active, and [cuda] and [qthreads] are active exactly when
    [cmake_args] emits [-DKOKKOS_ENABLE_CUDA=ON] and
    [-DKOKKOS_ENABLE_QTHREADS=ON]. *)
Theorem dependencies_follow_backends (spec : Spec) (h g : string)
    (args : list string) :
  variants spec !! "host_arch" = Some (VStr h) ->
  variants spec !! "gpu_arch" = Some (VStr g) ->
  Kokkos.cmake_args spec = Ok args ->
  In "hwloc@:1" (active_dependencies Kokkos.package spec) /\
  (In "cuda" (active_dependencies Kokkos.package spec)
   <-> In "-DKOKKOS_ENABLE_CUDA=ON" args) /\
  (In "qthreads" (active_dependencies Kokkos.package spec)
   <-> In "-DKOKKOS_ENABLE_QTHREADS=ON" args).
Proof.
  intros Hh Hg Hargs.
  assert (Hflag : forall name flag,
            In (name, flag) flag_table ->
            (In flag args <-> enabled spec name = true)).
  { intros name flag Hin. split.
    - intros Hf. destruct (enabled spec name) eqn:En; [reflexivity |].
      exfalso. exact (cmake_args_omits spec h g Hh Hg name flag _ Hin En Hargs Hf).
    - intros En. apply (cmake_args_In spec h g Hh Hg _ flag Hargs).
      left. now exists name. }
  unfold active_dependencies. simpl pkg_dependencies. unfold Kokkos.dependencies.
  cbn [List.filter dependency_active dep_when].
  change (contains "+qthreads" spec) with (enabled spec "qthreads").
  change (contains "+cuda" spec) with (enabled spec "cuda").
  rewrite (Hflag "cuda" "-DKOKKOS_ENABLE_CUDA=ON")
    by (simpl; repeat (first [left; reflexivity | right])).
  rewrite (Hflag "qthreads" "-DKOKKOS_ENABLE_QTHREADS=ON")
    by (simpl; repeat (first [left; reflexivity | right])).
  destruct (enabled spec "qthreads"), (enabled spec "cuda"); simpl;
    repeat split; intros; try tauto; try discriminate;
    repeat match goal with
           | H : _ \/ _ |- _ => destruct H
           | H : False |- _ => destruct H
           | H : _ = _ |- _ => discriminate H
           end.
Qed.

Lemma dependencies_follow_backends_witness :
  In "cuda" (active_dependencies Kokkos.package uvm_volta_build) /\
  In "qthreads" (active_dependencies Kokkos.package uvm_volta_build).
Proof.
  destruct (dependencies_follow_backends uvm_volta_build "none" "Volta70"
              [ "-DKOKKOS_ENABLE_SERIAL=ON"; "-DKOKKOS_ENABLE_QTHREADS=ON";
                "-DKOKKOS_ENABLE_CUDA=ON"; "-DKOKKOS_ARCH=Volta70";
                "-DKOKKOS_ENABLE_CUDA_UVM=ON" ]) as (_ & Hcuda & Hq);
    try (vm_compute; reflexivity).
  split.
  - apply Hcuda. simpl. do 2 right. left. reflexivity.
  - apply Hq. simpl. right. left. reflexivity.
Defined.

(** X11: every conflict rule of the recipe is about a declared variant
    and a value that variant can take, and its [when] is a test of a
    declared variant or a readable version range; no rule is dead through a
    misspelt name or value. *)
Theorem conflicts_well_formed :
  Forall (fun c => conflict_subject_declared Kokkos.variant_decls c = true /\
                   conflict_when_sound Kokkos.variant_decls c = true)
         Kokkos.conflicts.
Proof.
  apply Forall_forall. intros c Hin.
  assert (Hall : forallb (fun c => conflict_subject_declared Kokkos.variant_decls c
                                   && conflict_when_sound Kokkos.variant_decls c)
                         Kokkos.conflicts = true)
    by (vm_compute; reflexivity).
  rewrite forallb_forall in Hall. apply Hall in Hin.
  now apply andb_true_iff in Hin.
Qed.
